(** * CodeBot: the model loader and the text generator of CoadBot.ipynb

    The notebook defines two Python functions,
    [instantiate_huggingface_model] and [generate_text], that wrap calls
    into the transformers library.  The library is not part of the
    repository: it is taken here as a parameter (a record of arbitrary
    effectful, fallible functions over a machine state), and the two
    functions are written over a small state-and-exception monad whose
    state also records every call that crosses into the library. *)

From stdpp Require Import gmap strings list fin_maps.

(** ** Python values and exceptions *)

(** Object identity. *)
Definition loc : Type := positive.

#[global] Instance loc_eq_dec : EqDecision loc := _.
#[global] Instance loc_countable : Countable loc := _.

(** The values the two functions pass around: [None], booleans, strings
    and references to objects (a quantization configuration). *)
Inductive PyVal : Type :=
| PyNone
| PyBool (b : bool)
| PyStr (s : string)
| PyObj (l : loc).

#[global] Instance PyVal_eq_dec : EqDecision PyVal.
Proof. solve_decision. Defined.

(** [v is None] *)
Definition is_None (v : PyVal) : bool :=
  match v with PyNone => true | _ => false end.

(** An exception: the name of its class and its argument. *)
Record Exn : Type := mkExn { exn_kind : string; exn_arg : string }.

Definition IndexError : Exn := mkExn "IndexError" "list index out of range".
Definition KeyError (k : string) : Exn := mkExn "KeyError" k.
Definition AttributeError (a : string) : Exn := mkExn "AttributeError" a.

(** The outcome of running Python code: a value, or a raised exception. *)
Inductive Result (A : Type) : Type :=
| Return (a : A)
| Raise (e : Exn).
Arguments Return {A} a.
Arguments Raise {A} e.

(** The attribute dictionary of an object. *)
Abbreviation Attrs := (gmap string PyVal).

(** An argument of [pipeline(...)]: a plain value, an integer, a float
    literal written [digits e exponent], or a reference to a model, a
    tokenizer or a streamer. *)
Inductive Arg : Type :=
| arg_val (v : PyVal)
| arg_int (n : Z)
| arg_float (digits exponent : Z)
| arg_model (l : loc)
| arg_tokenizer (l : loc)
| arg_streamer (l : loc).

(** A call that leaves the repository's code: the constructors and the
    loaders of the library, a pipeline called on a prompt. *)
Inductive Call : Type :=
| call_BitsAndBytesConfig (kwargs : list (string * PyVal))
| call_AutoModelForCausalLM_from_pretrained
    (model_name : string)
    (quantization_config device_map use_cache trust_remote_code : PyVal)
| call_AutoTokenizer_from_pretrained
    (model_name : string) (trust_remote_code : PyVal)
| call_pipeline (prompt : string)
| call_TextStreamer (tokenizer : loc)
| call_transformers_pipeline (task : string) (kwargs : list (string * Arg)).

(** ** The monad of the notebook's code: state and exceptions *)

Definition M (S A : Type) : Type := S -> Result A * S.

Definition ret {S A} (a : A) : M S A := fun s => (Return a, s).

Definition raise {S A} (e : Exn) : M S A := fun s => (Raise e, s).

Definition bind {S A B} (c : M S A) (k : A -> M S B) : M S B :=
  fun s =>
    match c s with
    | (Return a, s') => k a s'
    | (Raise e, s') => (Raise e, s')
    end.

Declare Scope py_scope.
Delimit Scope py_scope with py.
Notation "x <- c ;; k" := (bind c (fun x => k))
  (at level 100, c at next level, right associativity) : py_scope.
Notation "c ;;; k" := (bind c (fun _ => k))
  (at level 100, right associativity) : py_scope.
Open Scope py_scope.

Section Notebook.

(** Everything the library keeps to itself: the model registry, device
    memory, the state of the random generator, the standard output. *)
Variable World : Type.

(** The machine between two statements: the tokenizer objects and the
    configuration objects with their attributes, and the library's world.
    A reference names an object of one class, and each class has its own
    store: a tokenizer is never a configuration.  Models are opaque. *)
Record Machine : Type := mkMachine {
  tokenizers : gmap loc Attrs;
  configs : gmap loc Attrs;
  world : World
}.

(** A function of the library: it may change the machine in any way, and
    returns or raises. *)
Definition Extern (A : Type) : Type := Machine -> Result A * Machine.

(** The state threaded through the notebook's own code: the machine, and
    the calls made into the library so far, oldest first. *)
Record State : Type := mkState {
  machine : Machine;
  calls : list Call
}.

Abbreviation Py := (M State).

(** A call into the library: the call is recorded, then the library runs
    on the machine. *)
Definition extern {A} (c : Call) (f : Extern A) : Py A :=
  fun σ =>
    let '(r, m) := f (machine σ) in
    (r, mkState m (calls σ ++ [c])).

(** The attributes of tokenizer [t]; an object never assigned to has none. *)
Definition tok_attrs (m : Machine) (t : loc) : Attrs := tokenizers m !!! t.

(** [tokenizer.a] *)
Definition getattr (t : loc) (a : string) : Py PyVal :=
  fun σ =>
    match tok_attrs (machine σ) t !! a with
    | Some v => (Return v, σ)
    | None => (Raise (AttributeError a), σ)
    end.

Definition set_tok_attr (t : loc) (a : string) (v : PyVal) (m : Machine) : Machine :=
  mkMachine (<[t := <[a := v]> (tok_attrs m t)]> (tokenizers m)) (configs m) (world m).

(** [tokenizer.a = v], as the assignment of an attribute: the value is
    stored under the name.  What the library's own setter may do besides,
    such as refusing a value or deriving other attributes from it, is not
    part of the model. *)
Definition setattr (t : loc) (a : string) (v : PyVal) : Py unit :=
  fun σ => (Return tt, mkState (set_tok_attr t a v (machine σ)) (calls σ)).

(** [l[i]] on a list *)
Definition list_getitem {A} (l : list A) (i : nat) : Py A :=
  match l !! i with
  | Some x => ret x
  | None => raise IndexError
  end.

(** [d[k]] on a dict with string keys *)
Definition dict_getitem (d : gmap string PyVal) (k : string) : Py PyVal :=
  match d !! k with
  | Some v => ret v
  | None => raise (KeyError k)
  end.

(** ** The library *)

(** What the notebook imports from transformers.  Each function is
    arbitrary: nothing is assumed about what it returns, raises or does to
    the machine.  Constructors and loaders return a reference to the object
    they built. *)
Record Transformers : Type := mkTransformers {
  lib_BitsAndBytesConfig : list (string * PyVal) -> Extern loc;
  lib_AutoModelForCausalLM_from_pretrained :
    string -> PyVal -> PyVal -> PyVal -> PyVal -> Extern loc;
  lib_AutoTokenizer_from_pretrained : string -> PyVal -> Extern loc
}.

(** A text-generation pipeline is a callable object: on a prompt it
    returns a list of records, or raises. *)
Definition Pipeline : Type := string -> Extern (list (gmap string PyVal)).

Variable lib : Transformers.

(** [BitsAndBytesConfig(k1=v1, k2=v2, ..)] *)
Definition BitsAndBytesConfig (kwargs : list (string * PyVal)) : Py loc :=
  extern (call_BitsAndBytesConfig kwargs) (lib_BitsAndBytesConfig lib kwargs).

(** [AutoModelForCausalLM.from_pretrained(model_name, quantization_config=..,
    device_map=.., use_cache=.., trust_remote_code=..)] *)
Definition AutoModelForCausalLM_from_pretrained
    (model_name : string)
    (quantization_config device_map use_cache trust_remote_code : PyVal) : Py loc :=
  extern
    (call_AutoModelForCausalLM_from_pretrained
       model_name quantization_config device_map use_cache trust_remote_code)
    (lib_AutoModelForCausalLM_from_pretrained lib
       model_name quantization_config device_map use_cache trust_remote_code).

(** [AutoTokenizer.from_pretrained(model_name, trust_remote_code=..)] *)
Definition AutoTokenizer_from_pretrained
    (model_name : string) (trust_remote_code : PyVal) : Py loc :=
  extern
    (call_AutoTokenizer_from_pretrained model_name trust_remote_code)
    (lib_AutoTokenizer_from_pretrained lib model_name trust_remote_code).

(** [pipeline(prompt)] *)
Definition call (pipeline : Pipeline) (prompt : string)
  : Py (list (gmap string PyVal)) :=
  extern (call_pipeline prompt) (pipeline prompt).

(** ** instantiate_huggingface_model *)

(** The keyword arguments of the default configuration:
    [load_in_8bit=True, low_cpu_mem_usage=True]. *)
Definition default_quantization_kwargs : list (string * PyVal) :=
  [("load_in_8bit", PyBool true); ("low_cpu_mem_usage", PyBool true)].

(** The body of the function, on the values bound to its parameters. *)
Definition instantiate_huggingface_model
    (model_name : string)
    (quantization_config device_map use_cache trust_remote_code
     pad_token padding_side : PyVal)
  : Py (loc * loc) :=
  quantization_config <-
    (if is_None quantization_config
     then c <- BitsAndBytesConfig default_quantization_kwargs ;; ret (PyObj c)
     else ret quantization_config) ;;
  model <- AutoModelForCausalLM_from_pretrained
             model_name quantization_config device_map use_cache
             trust_remote_code ;;
  tokenizer <- AutoTokenizer_from_pretrained model_name trust_remote_code ;;
  (if negb (is_None pad_token)
   then setattr tokenizer "pad_token" pad_token
   else eos_token <- getattr tokenizer "eos_token" ;;
        setattr tokenizer "pad_token" eos_token) ;;;
  setattr tokenizer "padding_side" padding_side ;;;
  ret (model, tokenizer).

(** The optional arguments of a call; [None] is an argument left out. *)
Record Kwargs : Type := mkKwargs {
  kw_quantization_config : option PyVal;
  kw_device_map : option PyVal;
  kw_use_cache : option PyVal;
  kw_trust_remote_code : option PyVal;
  kw_pad_token : option PyVal;
  kw_padding_side : option PyVal
}.


(** A call of the function: the parameters left out take the defaults of
    the [def] line, [quantization_config=None, device_map="auto",
    use_cache=True, trust_remote_code=None, pad_token=None,
    padding_side="left"]. *)
Definition instantiate_huggingface_model_call
    (model_name : string) (kw : Kwargs) : Py (loc * loc) :=
  instantiate_huggingface_model model_name
    (default PyNone (kw_quantization_config kw))
    (default (PyStr "auto") (kw_device_map kw))
    (default (PyBool true) (kw_use_cache kw))
    (default PyNone (kw_trust_remote_code kw))
    (default PyNone (kw_pad_token kw))
    (default (PyStr "left") (kw_padding_side kw)).

(** ** generate_text *)

(** [result = pipeline(prompt)[0]['generated_text']]; the body ends there,
    without a [return], so the call evaluates to [None]. *)
Definition generate_text (pipeline : Pipeline) (prompt : string) : Py PyVal :=
  out <- call pipeline prompt ;;
  first <- list_getitem out 0 ;;
  result <- dict_getitem first "generated_text" ;;
  ret PyNone.

End Notebook.

Arguments mkMachine {World}.
Arguments tokenizers {World}.
Arguments configs {World}.
Arguments world {World}.
Arguments mkState {World}.
Arguments machine {World}.
Arguments calls {World}.
Arguments extern {World A}.
Arguments tok_attrs {World}.
Arguments getattr {World}.
Arguments set_tok_attr {World}.
Arguments setattr {World}.
Arguments list_getitem {World A}.
Arguments dict_getitem {World}.
Arguments mkTransformers {World}.
Arguments lib_BitsAndBytesConfig {World}.
Arguments lib_AutoModelForCausalLM_from_pretrained {World}.
Arguments lib_AutoTokenizer_from_pretrained {World}.
Arguments BitsAndBytesConfig {World}.
Arguments AutoModelForCausalLM_from_pretrained {World}.
Arguments AutoTokenizer_from_pretrained {World}.
Arguments call {World}.
Arguments instantiate_huggingface_model {World}.
Arguments instantiate_huggingface_model_call {World}.
Arguments generate_text {World}.

(** ** The two branches of the loader

    Two relations that name what the two [if] statements of the loader
    amount to; the lemmas on the loader are stated with them. *)
Section Branches.
Context {World : Type} (lib : Transformers World).

(** [configured qc σ qc' m cs]: with [qc] bound to [quantization_config],
    the first statement run in [σ] leaves [qc'] as the configuration, [m]
    as the machine and [cs] as the calls made. *)
Inductive configured (qc : PyVal) (σ : State World)
  : PyVal -> Machine World -> list Call -> Prop :=
| configured_supplied :
    qc <> PyNone ->
    configured qc σ qc (machine σ) (calls σ)
| configured_default c m :
    qc = PyNone ->
    lib_BitsAndBytesConfig lib default_quantization_kwargs (machine σ)
      = (Return c, m) ->
    configured qc σ (PyObj c) m
      (calls σ ++ [call_BitsAndBytesConfig default_quantization_kwargs]).

(** [padded pad_token m tokenizer v]: [v] is the value the loader assigns
    to [tokenizer.pad_token] on machine [m]. *)
Inductive padded (pad_token : PyVal) (m : Machine World) (tokenizer : loc)
  : PyVal -> Prop :=
| padded_supplied :
    pad_token <> PyNone -> padded pad_token m tokenizer pad_token
| padded_eos eos_token :
    pad_token = PyNone ->
    tok_attrs m tokenizer !! "eos_token" = Some eos_token ->
    padded pad_token m tokenizer eos_token.

End Branches.

(** ** A concrete library and concrete pipelines

    A small registry standing for the model hub, used to run the two
    functions on explicit inputs.  The world counts the calls the library
    has served. *)
Module Demo.

Definition bump (m : Machine nat) : Machine nat :=
  mkMachine (tokenizers m) (configs m) (S (world m)).

(** The constructor stores its keyword arguments on a new object. *)
Definition new_config (kwargs : list (string * PyVal)) : Extern nat loc :=
  fun m =>
    let c := fresh (dom (configs m)) in
    (Return c,
     mkMachine (tokenizers m) (<[c := list_to_map kwargs]> (configs m))
               (S (world m))).

Definition not_found {A} (model_name : string) : Extern nat A :=
  fun m => (Raise (mkExn "OSError" model_name), bump m).

(** Two checkpoints have weights; a third name has a tokenizer only. *)
Definition load_model (model_name : string)
    (quantization_config device_map use_cache trust_remote_code : PyVal)
  : Extern nat loc :=
  if decide (model_name = "Deci/DeciCoder-6B") then
    fun m => (Return 11%positive, bump m)
  else if decide (model_name = "bert-base-uncased") then
    fun m => (Return 12%positive, bump m)
  else if decide (model_name = "weights-only") then
    fun m => (Return 13%positive, bump m)
  else not_found model_name.

Definition new_tokenizer (attrs : Attrs) : Extern nat loc :=
  fun m =>
    let t := fresh (dom (tokenizers m)) in
    (Return t, mkMachine (<[t := attrs]> (tokenizers m)) (configs m) (S (world m))).

(** The first tokenizer ends its texts with an end-of-sequence token and
    has no pad token; the second one has a pad token and no
    end-of-sequence token. *)
Definition load_tokenizer (model_name : string) (trust_remote_code : PyVal)
  : Extern nat loc :=
  if decide (model_name = "Deci/DeciCoder-6B") then
    new_tokenizer
      (<["eos_token" := PyStr "<|endoftext|>"]>
         (<["pad_token" := PyNone]> {["padding_side" := PyStr "right"]}))
  else if decide (model_name = "bert-base-uncased") then
    new_tokenizer
      (<["eos_token" := PyNone]>
         (<["pad_token" := PyStr "[PAD]"]> {["padding_side" := PyStr "right"]}))
  else not_found model_name.

Definition hub : Transformers nat :=
  mkTransformers new_config load_model load_tokenizer.

(** The same hub on a machine where the quantization backend is missing:
    the constructor raises. *)
Definition hub_without_backend : Transformers nat :=
  mkTransformers
    (fun _ m => (Raise (mkExn "ImportError" "bitsandbytes"), bump m))
    load_model load_tokenizer.

Definition boot : State nat := mkState (mkMachine ∅ ∅ 0) [].

(** A configuration object the caller built beforehand. *)
Definition four_bit : Attrs := {["load_in_4bit" := PyBool true]}.

Definition boot_with_config : State nat :=
  mkState (mkMachine ∅ {[5%positive := four_bit]} 0) [].

(** The keyword arguments of the notebook's own call,
    [instantiate_huggingface_model("Deci/DeciCoder-6B", trust_remote_code=True)]. *)
Definition trusting : Kwargs :=
  mkKwargs None None None (Some (PyBool true)) None None.

(** A pipeline that completes the prompt, and returns two candidates. *)
Definition completing : Pipeline nat :=
  fun prompt m =>
    (Return [ {["generated_text" := PyStr (prompt +:+ " or not.")]};
              {["generated_text" := PyStr prompt]} ],
     bump m).

(** A pipeline that returns no candidate. *)
Definition silent : Pipeline nat := fun _ m => (Return [], bump m).

(** A pipeline whose records carry the text under another key. *)
Definition summarizing : Pipeline nat :=
  fun prompt m => (Return [ {["summary_text" := PyStr prompt]} ], bump m).

(** A pipeline that runs out of memory. *)
Definition exhausted : Pipeline nat :=
  fun _ m => (Raise (mkExn "OutOfMemoryError" "CUDA out of memory"), bump m).

End Demo.

(** ** The rest of the notebook: the loading cell, the pipeline cell and
    the prompt cells *)

(** The line feed, character 10. *)
Definition newline : string := String (Ascii.ascii_of_nat 10) EmptyString.

(** Three double quotes, character 34. *)
Definition triple_quote : string :=
  String (Ascii.ascii_of_nat 34) (String (Ascii.ascii_of_nat 34) (String (Ascii.ascii_of_nat 34) EmptyString)).

(** The prompts of the five prompt cells, in the notebook's order. *)
Definition prompt_all_odd_elements : string :=
  "def all_odd_elements(sequence):" +:+ newline +:+ "    " +:+ triple_quote
  +:+ "Returns every odd element of the sequence." +:+ triple_quote.

Definition prompt_nth_element_in_fibonnaci : string :=
  "def nth_element_in_fibonnaci(element):" +:+ newline +:+ "    "
  +:+ triple_quote
  +:+ "Returns the nth element of the Fibonnaci sequence." +:+ triple_quote.

Definition prompt_python : string :=
  "Write code in Python to check if a number is prime".

Definition prompt_java : string :=
  "Write code in Java to check if a number is prime".

Definition prompt_rust : string :=
  "Write code in Rust to check if a number is prime".

Definition notebook_prompts : list string :=
  [prompt_all_odd_elements; prompt_nth_element_in_fibonnaci;
   prompt_python; prompt_java; prompt_rust].

Section Cells.
Context {World : Type}.

(** What cell 4 takes from the library: the constructor of a streamer on a
    tokenizer, and the factory of pipelines. *)
Record Generation : Type := mkGeneration {
  lib_TextStreamer : loc -> Extern World loc;
  lib_pipeline : string -> list (string * Arg) -> Extern World (Pipeline World)
}.

Variables (lib : Transformers World) (gen : Generation).

(** [TextStreamer(tokenizer)] *)
Definition TextStreamer (tokenizer : loc) : M (State World) loc :=
  extern (call_TextStreamer tokenizer) (lib_TextStreamer gen tokenizer).

(** [pipeline(task, k1=v1, ..)], the factory imported from the library *)
Definition pipeline (task : string) (kwargs : list (string * Arg))
  : M (State World) (Pipeline World) :=
  extern (call_transformers_pipeline task kwargs)
    (lib_pipeline gen task kwargs).

(** [model, tokenizer = instantiate_huggingface_model("Deci/DeciCoder-6B",
    trust_remote_code=True)] *)
Definition load_cell : M (State World) (loc * loc) :=
  instantiate_huggingface_model_call lib "Deci/DeciCoder-6B"
    (mkKwargs None None None (Some (PyBool true)) None None).

(** The cell that builds [streamer] and [deci_generator] from the [model]
    and the [tokenizer] of the loading cell. *)
Definition generator_cell (model tokenizer : loc)
  : M (State World) (Pipeline World) :=
  streamer <- TextStreamer tokenizer ;;
  pipeline "text-generation"
    [("model", arg_model model);
     ("tokenizer", arg_tokenizer tokenizer);
     ("device_map", arg_val (PyStr "auto"));
     ("max_length", arg_int 2048);
     ("temperature", arg_float 1 (-3));
     ("do_sample", arg_val (PyBool true));
     ("streamer", arg_streamer streamer)].

(** The five cells [prompt = ..; generate_text(deci_generator, prompt)]. *)
Definition prompt_cells (deci_generator : Pipeline World)
  : M (State World) PyVal :=
  generate_text deci_generator prompt_all_odd_elements ;;;
  generate_text deci_generator prompt_nth_element_in_fibonnaci ;;;
  generate_text deci_generator prompt_python ;;;
  generate_text deci_generator prompt_java ;;;
  generate_text deci_generator prompt_rust.

(** The loading cell and the pipeline cell in order, the second on the
    globals [model] and [tokenizer] the first bound; a cell that raises
    ends the run. *)
Definition setup_cells : M (State World) (Pipeline World) :=
  loaded <- load_cell ;;
  let '(model, tokenizer) := loaded in
  generator_cell model tokenizer.

(** All the cells in order. *)
Definition notebook : M (State World) PyVal :=
  deci_generator <- setup_cells ;;
  prompt_cells deci_generator.

(** [generate_text] on each prompt of a list in turn, as the prompt cells
    do on theirs; the value is the last call's. *)
Fixpoint run_prompts (deci_generator : Pipeline World) (prompts : list string)
  : M (State World) PyVal :=
  match prompts with
  | [] => ret PyNone
  | [prompt] => generate_text deci_generator prompt
  | prompt :: rest =>
      generate_text deci_generator prompt ;;;
      run_prompts deci_generator rest
  end.

End Cells.

Arguments Generation World : clear implicits.

(** A concrete streamer constructor and pipeline factory. *)
Module DemoCells.

(** Streamers are numbered from 21; every pipeline built completes its
    prompt, whatever its arguments. *)
Definition studio : Generation nat :=
  mkGeneration
    (fun tokenizer m => (Return 21%positive, Demo.bump m))
    (fun task kwargs m => (Return Demo.completing, Demo.bump m)).

(** A pipeline that answers the first prompt it is given and is out of
    memory from the second on: the world counts the calls served. *)
Definition one_shot : Pipeline nat :=
  fun prompt m =>
    if decide (world m = 0)
    then Demo.completing prompt m
    else Demo.exhausted prompt m.

(** A pipeline that returns the prompt alone, with a score beside it. *)
Definition echoing : Pipeline nat :=
  fun prompt m =>
    (Return [ <["score" := PyStr "0.5"]> {["generated_text" := PyStr prompt]} ],
     Demo.bump m).

End DemoCells.

(** * Properties *)

(** ** The monad *)

Section Monad.
Context {S A B : Type}.

Lemma bind_Return (c : M S A) (k : A -> M S B) s a s' :
  c s = (Return a, s') -> bind c k s = k a s'.
Proof. unfold bind. intros ->. reflexivity. Qed.

Lemma bind_Raise (c : M S A) (k : A -> M S B) s e s' :
  c s = (Raise e, s') -> bind c k s = (Raise e, s').
Proof. unfold bind. intros ->. reflexivity. Qed.

Lemma bind_Return_inv (c : M S A) (k : A -> M S B) s b s'' :
  bind c k s = (Return b, s'') ->
  exists a s', c s = (Return a, s') /\ k a s' = (Return b, s'').
Proof.
  unfold bind. destruct (c s) as [[a|e] s'] eqn:Hc; intros H.
  - exists a, s'. split; [reflexivity | exact H].
  - discriminate H.
Qed.

End Monad.

(** ** Attributes of tokenizers *)

Section Attributes.
Context {World : Type}.
Implicit Types (m : Machine World) (t : loc) (a : string) (v : PyVal).

Lemma tok_attrs_set_same m t a v :
  tok_attrs (set_tok_attr t a v m) t = <[a := v]> (tok_attrs m t).
Proof. unfold tok_attrs, set_tok_attr. simpl. apply lookup_total_insert_eq. Qed.

End Attributes.

(** ** generate_text *)

Section Generator.
Context {World : Type}.
Implicit Types (pipeline : Pipeline World) (prompt : string) (σ : State World).

(** The state after the only call is the one the pipeline left, with the
    call recorded; the indexing that follows does not touch it. *)
Lemma generate_text_state pipeline prompt σ :
  snd (generate_text pipeline prompt σ)
  = mkState (snd (pipeline prompt (machine σ))) (calls σ ++ [call_pipeline prompt]).
Proof.
  unfold generate_text, call, bind, extern, list_getitem, dict_getitem, ret, raise.
  destruct (pipeline prompt (machine σ)) as [[out|e] m]; simpl; [|reflexivity].
  destruct out as [|first rest]; simpl; [reflexivity|].
  destruct (first !! "generated_text"); reflexivity.
Qed.

(** What the call evaluates to, by cases on what the pipeline did. *)
Lemma generate_text_result pipeline prompt σ :
  fst (generate_text pipeline prompt σ)
  = match fst (pipeline prompt (machine σ)) with
    | Raise e => Raise e
    | Return [] => Raise IndexError
    | Return (first :: _) =>
        match first !! "generated_text" with
        | Some _ => Return PyNone
        | None => Raise (KeyError "generated_text")
        end
    end.
Proof.
  unfold generate_text, call, bind, extern, list_getitem, dict_getitem, ret, raise.
  destruct (pipeline prompt (machine σ)) as [[out|e] m]; simpl; [|reflexivity].
  destruct out as [|first rest]; simpl; [reflexivity|].
  destruct (first !! "generated_text"); reflexivity.
Qed.

(** C10: generate_text does not look at the prompt.  For every prompt, the
    empty string included, the calls it makes into the library are exactly
    one call of the pipeline on that prompt, and the machine it leaves is
    the one that single call left. *)
Theorem generate_text_calls_pipeline_once pipeline prompt σ :
  calls (snd (generate_text pipeline prompt σ))
    = calls σ ++ [call_pipeline prompt]
  /\ machine (snd (generate_text pipeline prompt σ))
    = snd (pipeline prompt (machine σ))
  /\ calls (snd (generate_text pipeline "" σ)) = calls σ ++ [call_pipeline ""].
Proof.
  rewrite !generate_text_state. simpl. repeat split.
Qed.

(** C8: generate_text takes element 0 and then key 'generated_text' of what
    the pipeline returned.  On an empty list it raises IndexError, on a
    first record without the key it raises KeyError, and it returns a value
    exactly when the pipeline returned a non-empty list whose first record
    has the key. *)
Theorem generate_text_indexing pipeline prompt σ :
  (forall m, pipeline prompt (machine σ) = (Return [], m) ->
     generate_text pipeline prompt σ
     = (Raise IndexError, mkState m (calls σ ++ [call_pipeline prompt])))
  /\ (forall first rest m,
        pipeline prompt (machine σ) = (Return (first :: rest), m) ->
        first !! "generated_text" = None ->
        generate_text pipeline prompt σ
        = (Raise (KeyError "generated_text"),
           mkState m (calls σ ++ [call_pipeline prompt])))
  /\ ((exists v, fst (generate_text pipeline prompt σ) = Return v)
      <-> (exists first rest text,
             fst (pipeline prompt (machine σ)) = Return (first :: rest)
             /\ first !! "generated_text" = Some text)).
Proof.
  split; [|split].
  - intros m Hp. apply injective_projections.
    + rewrite generate_text_result, Hp. reflexivity.
    + rewrite generate_text_state, Hp. reflexivity.
  - intros first rest m Hp Hk. apply injective_projections.
    + rewrite generate_text_result, Hp. simpl. rewrite Hk. reflexivity.
    + rewrite generate_text_state, Hp. reflexivity.
  - rewrite generate_text_result.
    destruct (fst (pipeline prompt (machine σ))) as [[|first rest]|e].
    + split; [intros [v Hv]; discriminate Hv|].
      intros (first & rest & text & H & _); discriminate H.
    + destruct (first !! "generated_text") as [text|] eqn:Hk.
      * split; [|intros _; exists PyNone; reflexivity].
        intros _. exists first, rest, text. split; [reflexivity|exact Hk].
      * split; [intros [v Hv]; discriminate Hv|].
        intros (first' & rest' & text & H & Hk'). simplify_eq.
    + split; [intros [v Hv]; discriminate Hv|].
      intros (first & rest & text & H & _); discriminate H.
Qed.

End Generator.

(** ** instantiate_huggingface_model *)

Section Loader.
Context {World : Type} (lib : Transformers World).
Variables (model_name : string).
Variables (quantization_config device_map use_cache trust_remote_code : PyVal).
Variables (pad_token padding_side : PyVal).
Implicit Types (σ : State World) (m : Machine World) (model tokenizer : loc).

Local Abbreviation load :=
  (instantiate_huggingface_model lib model_name quantization_config device_map
     use_cache trust_remote_code pad_token padding_side).

Local Abbreviation new_config :=
  (call_BitsAndBytesConfig
     [("load_in_8bit", PyBool true); ("low_cpu_mem_usage", PyBool true)]).

Local Abbreviation load_model qc :=
  (call_AutoModelForCausalLM_from_pretrained
     model_name qc device_map use_cache trust_remote_code).

Local Abbreviation load_tokenizer :=
  (call_AutoTokenizer_from_pretrained model_name trust_remote_code).

Lemma is_None_true v : is_None v = true <-> v = PyNone.
Proof. destruct v; simpl; split; congruence. Qed.

Lemma is_None_false v : is_None v = false <-> v <> PyNone.
Proof. destruct v; simpl; split; congruence. Qed.

(** A call that returns is a run of the two loaders on the same identifier,
    followed by two assignments on the tokenizer. *)
Lemma load_Return_inv σ model tokenizer σ' :
  load σ = (Return (model, tokenizer), σ') ->
  exists qc m0 cs0 m1 m2 pad,
    configured lib quantization_config σ qc m0 cs0
    /\ lib_AutoModelForCausalLM_from_pretrained lib
         model_name qc device_map use_cache trust_remote_code m0
       = (Return model, m1)
    /\ lib_AutoTokenizer_from_pretrained lib model_name trust_remote_code m1
       = (Return tokenizer, m2)
    /\ padded pad_token m2 tokenizer pad
    /\ σ' = mkState
              (set_tok_attr tokenizer "padding_side" padding_side
                 (set_tok_attr tokenizer "pad_token" pad m2))
              (cs0 ++ [load_model qc; load_tokenizer]).
Proof.
  unfold instantiate_huggingface_model.
  intros H.
  apply bind_Return_inv in H as (qc & σ0 & Hqc & H).
  apply bind_Return_inv in H as (mdl & σ1 & Hm & H).
  apply bind_Return_inv in H as (tok & σ2 & Ht & H).
  apply bind_Return_inv in H as ([] & σ3 & Hp & H).
  apply bind_Return_inv in H as ([] & σ4 & Hs & H).
  unfold ret in H. simplify_eq.
  unfold AutoModelForCausalLM_from_pretrained, extern in Hm.
  destruct (lib_AutoModelForCausalLM_from_pretrained _ _ _ _ _ _ _)
    as [r1 m1] eqn:Em in Hm. simplify_eq.
  unfold AutoTokenizer_from_pretrained, extern in Ht. simpl in Ht.
  destruct (lib_AutoTokenizer_from_pretrained _ _ _ _)
    as [r2 m2] eqn:Et in Ht. simplify_eq.
  unfold setattr in Hs. simplify_eq.
  assert (exists pad, padded pad_token m2 tokenizer pad
            /\ σ3 = mkState (set_tok_attr tokenizer "pad_token" pad m2)
                      (calls σ0 ++ [load_model qc; load_tokenizer]))
    as (pad & Hpad & ->).
  { destruct (is_None pad_token) eqn:En; simpl in Hp.
    - apply bind_Return_inv in Hp as (eos & σe & He & Hp).
      unfold getattr in He. simpl in He.
      destruct (tok_attrs m2 tokenizer !! "eos_token") as [v|] eqn:Ee;
        [|discriminate He].
      unfold setattr in Hp. simplify_eq. simpl.
      exists eos. split.
      + apply padded_eos; [by apply is_None_true | exact Ee].
      + by rewrite <- app_assoc.
    - unfold setattr in Hp. simplify_eq. simpl.
      exists pad_token. split.
      + apply padded_supplied. by apply is_None_false.
      + by rewrite <- app_assoc. }
  exists qc, (machine σ0), (calls σ0), m1, m2, pad.
  split; [|by repeat split].
  destruct (is_None quantization_config) eqn:En.
  - apply bind_Return_inv in Hqc as (c & σc & Hc & Hqc).
    unfold ret in Hqc. simplify_eq.
    unfold BitsAndBytesConfig, extern in Hc.
    destruct (lib_BitsAndBytesConfig _ _ _) as [r0 m0] eqn:Ec in Hc.
    simplify_eq. simpl.
    apply configured_default; [by apply is_None_true | exact Ec].
  - unfold ret in Hqc. simplify_eq.
    apply configured_supplied. by apply is_None_false.
Qed.

(** After the first statement the loader goes on with the configuration it
    has, supplied or default. *)
Lemma load_configured σ qc m0 cs0 :
  configured lib quantization_config σ qc m0 cs0 ->
  load σ
  = (model <- AutoModelForCausalLM_from_pretrained lib
                model_name qc device_map use_cache trust_remote_code ;;
     tokenizer <- AutoTokenizer_from_pretrained lib model_name trust_remote_code ;;
     (if negb (is_None pad_token)
      then setattr tokenizer "pad_token" pad_token
      else eos_token <- getattr tokenizer "eos_token" ;;
           setattr tokenizer "pad_token" eos_token) ;;;
     setattr tokenizer "padding_side" padding_side ;;;
     ret (model, tokenizer)) (mkState m0 cs0).
Proof.
  unfold instantiate_huggingface_model.
  intros [Hqc | c m Hqc Hc].
  - apply is_None_false in Hqc. rewrite Hqc.
    destruct σ; reflexivity.
  - apply is_None_true in Hqc. rewrite Hqc.
    unfold bind at 1. unfold bind at 1.
    unfold BitsAndBytesConfig, extern. rewrite Hc. reflexivity.
Qed.

Lemma load_config_Raise σ e m :
  quantization_config = PyNone ->
  lib_BitsAndBytesConfig lib default_quantization_kwargs (machine σ)
    = (Raise e, m) ->
  load σ = (Raise e, mkState m (calls σ ++ [new_config])).
Proof.
  intros Hqc Hc. unfold instantiate_huggingface_model.
  apply is_None_true in Hqc. rewrite Hqc.
  apply bind_Raise. apply bind_Raise.
  unfold BitsAndBytesConfig, extern. rewrite Hc. reflexivity.
Qed.

Lemma load_model_Raise σ qc m0 cs0 e m1 :
  configured lib quantization_config σ qc m0 cs0 ->
  lib_AutoModelForCausalLM_from_pretrained lib
    model_name qc device_map use_cache trust_remote_code m0 = (Raise e, m1) ->
  load σ = (Raise e, mkState m1 (cs0 ++ [load_model qc])).
Proof.
  intros Hqc Hm. rewrite (load_configured _ _ _ _ Hqc).
  apply bind_Raise.
  unfold AutoModelForCausalLM_from_pretrained, extern. simpl.
  rewrite Hm. reflexivity.
Qed.

Lemma load_tokenizer_Raise σ qc m0 cs0 model m1 e m2 :
  configured lib quantization_config σ qc m0 cs0 ->
  lib_AutoModelForCausalLM_from_pretrained lib
    model_name qc device_map use_cache trust_remote_code m0
    = (Return model, m1) ->
  lib_AutoTokenizer_from_pretrained lib model_name trust_remote_code m1
    = (Raise e, m2) ->
  load σ = (Raise e, mkState m2 (cs0 ++ [load_model qc; load_tokenizer])).
Proof.
  intros Hqc Hm Ht. rewrite (load_configured _ _ _ _ Hqc).
  erewrite bind_Return;
    [|unfold AutoModelForCausalLM_from_pretrained, extern; simpl;
      rewrite Hm; reflexivity].
  apply bind_Raise.
  unfold AutoTokenizer_from_pretrained, extern. simpl.
  rewrite Ht, <- app_assoc. reflexivity.
Qed.

Lemma load_eos_Raise σ qc m0 cs0 model m1 tokenizer m2 :
  configured lib quantization_config σ qc m0 cs0 ->
  lib_AutoModelForCausalLM_from_pretrained lib
    model_name qc device_map use_cache trust_remote_code m0
    = (Return model, m1) ->
  lib_AutoTokenizer_from_pretrained lib model_name trust_remote_code m1
    = (Return tokenizer, m2) ->
  pad_token = PyNone ->
  tok_attrs m2 tokenizer !! "eos_token" = None ->
  load σ = (Raise (AttributeError "eos_token"),
            mkState m2 (cs0 ++ [load_model qc; load_tokenizer])).
Proof.
  intros Hqc Hm Ht Hp He. rewrite (load_configured _ _ _ _ Hqc).
  erewrite bind_Return;
    [|unfold AutoModelForCausalLM_from_pretrained, extern; simpl;
      rewrite Hm; reflexivity].
  erewrite bind_Return;
    [|unfold AutoTokenizer_from_pretrained, extern; simpl;
      rewrite Ht, <- app_assoc; reflexivity].
  apply bind_Raise. subst pad_token. simpl. apply bind_Raise.
  unfold getattr. simpl. rewrite He. reflexivity.
Qed.

(** When the library returns at each call and the pad token is there to
    assign, the loader returns. *)
Lemma load_Return σ qc m0 cs0 model m1 tokenizer m2 pad :
  configured lib quantization_config σ qc m0 cs0 ->
  lib_AutoModelForCausalLM_from_pretrained lib
    model_name qc device_map use_cache trust_remote_code m0
    = (Return model, m1) ->
  lib_AutoTokenizer_from_pretrained lib model_name trust_remote_code m1
    = (Return tokenizer, m2) ->
  padded pad_token m2 tokenizer pad ->
  load σ
  = (Return (model, tokenizer),
     mkState
       (set_tok_attr tokenizer "padding_side" padding_side
          (set_tok_attr tokenizer "pad_token" pad m2))
       (cs0 ++ [load_model qc; load_tokenizer])).
Proof.
  intros Hqc Hm Ht Hp. rewrite (load_configured _ _ _ _ Hqc).
  erewrite bind_Return;
    [|unfold AutoModelForCausalLM_from_pretrained, extern; simpl;
      rewrite Hm; reflexivity].
  erewrite bind_Return;
    [|unfold AutoTokenizer_from_pretrained, extern; simpl;
      rewrite Ht, <- app_assoc; reflexivity].
  destruct Hp as [Hp | eos Hp He].
  - apply is_None_false in Hp. rewrite Hp. reflexivity.
  - subst pad_token. simpl.
    unfold bind at 1. unfold bind at 1. unfold getattr. simpl.
    rewrite He. reflexivity.
Qed.

(** The loader's own statements add nothing to what the library's calls
    did, except on the attributes of the tokenizer: the calls are the two
    loads, the second only if the first returned, and the configuration
    objects and the world are as the last call left them. *)
Lemma load_frame σ qc m0 cs0 :
  configured lib quantization_config σ qc m0 cs0 ->
  let after :=
    match lib_AutoModelForCausalLM_from_pretrained lib
            model_name qc device_map use_cache trust_remote_code m0 with
    | (Return _, m1) =>
        (snd (lib_AutoTokenizer_from_pretrained lib model_name
                trust_remote_code m1), [load_tokenizer])
    | (Raise _, m1) => (m1, [])
    end in
  calls (snd (load σ)) = cs0 ++ load_model qc :: snd after
  /\ configs (machine (snd (load σ))) = configs (fst after)
  /\ world (machine (snd (load σ))) = world (fst after).
Proof.
  intros Hqc.
  destruct (lib_AutoModelForCausalLM_from_pretrained lib
              model_name qc device_map use_cache trust_remote_code m0)
    as [[model|e] m1] eqn:Hm; simpl.
  2: { rewrite (load_model_Raise _ _ _ _ _ _ Hqc Hm). by simpl. }
  destruct (lib_AutoTokenizer_from_pretrained lib model_name
              trust_remote_code m1) as [[tokenizer|e] m2] eqn:Ht; simpl.
  2: { rewrite (load_tokenizer_Raise _ _ _ _ _ _ _ _ Hqc Hm Ht). by simpl. }
  destruct (decide (pad_token = PyNone)) as [Hp|Hp].
  - destruct (tok_attrs m2 tokenizer !! "eos_token") as [eos|] eqn:He.
    + rewrite (load_Return _ _ _ _ _ _ _ _ eos Hqc Hm Ht); [by simpl|].
      by apply padded_eos.
    + rewrite (load_eos_Raise _ _ _ _ _ _ _ _ Hqc Hm Ht Hp He). by simpl.
  - rewrite (load_Return _ _ _ _ _ _ _ _ pad_token Hqc Hm Ht); [by simpl|].
    by apply padded_supplied.
Qed.

(** The calls of a run that starts with the default configuration. *)
Lemma load_calls_default σ :
  quantization_config = PyNone ->
  (exists tail, calls (snd (load σ)) = calls σ ++ new_config :: tail)
  /\ (forall c m,
        lib_BitsAndBytesConfig lib default_quantization_kwargs (machine σ)
          = (Return c, m) ->
        exists tail,
          calls (snd (load σ))
          = calls σ ++ new_config :: load_model (PyObj c) :: tail).
Proof.
  intros Hqc.
  assert (forall c m,
    lib_BitsAndBytesConfig lib default_quantization_kwargs (machine σ)
      = (Return c, m) ->
    exists tail,
      calls (snd (load σ))
      = calls σ ++ new_config :: load_model (PyObj c) :: tail) as Hfwd.
  { intros c m Hc.
    destruct (load_frame σ _ _ _ (configured_default lib _ σ c m Hqc Hc))
      as (Hcalls & _).
    eexists. rewrite Hcalls, <- app_assoc. reflexivity. }
  split; [|exact Hfwd].
  destruct (lib_BitsAndBytesConfig lib default_quantization_kwargs
              (machine σ)) as [[c|e] m] eqn:Hc.
  - destruct (Hfwd c m eq_refl) as [tail ->]. by eexists.
  - rewrite (load_config_Raise σ e m Hqc Hc). by eexists.
Qed.

(** The calls of a run on a supplied configuration. *)
Lemma load_calls_supplied σ :
  quantization_config <> PyNone ->
  exists tail,
    calls (snd (load σ)) = calls σ ++ load_model quantization_config :: tail
    /\ forall kwargs, call_BitsAndBytesConfig kwargs ∉ tail.
Proof.
  intros Hqc.
  destruct (load_frame σ _ _ _ (configured_supplied lib _ σ Hqc))
    as (Hcalls & _).
  eexists. split; [exact Hcalls|].
  intros kwargs.
  destruct (lib_AutoModelForCausalLM_from_pretrained lib _ _ _ _ _ _)
    as [[model|e] m1]; simpl.
  - intros Hin%list_elem_of_singleton. discriminate Hin.
  - apply not_elem_of_nil.
Qed.

(** The configuration objects at the end of a load are those of the run of
    the library's two loaders, started on the configuration and the machine
    the first statement left. *)
Lemma load_configs σ qc m0 cs0 :
  configured lib quantization_config σ qc m0 cs0 ->
  configs (machine (snd (load σ)))
  = configs
      match lib_AutoModelForCausalLM_from_pretrained lib
              model_name qc device_map use_cache trust_remote_code m0 with
      | (Return _, m1) =>
          snd (lib_AutoTokenizer_from_pretrained lib model_name
                 trust_remote_code m1)
      | (Raise _, m1) => m1
      end.
Proof.
  intros Hqc. destruct (load_frame σ _ _ _ Hqc) as (_ & Hconfigs & _).
  rewrite Hconfigs.
  by destruct (lib_AutoModelForCausalLM_from_pretrained lib
                 model_name qc device_map use_cache trust_remote_code m0)
    as [[model|e] m1].
Qed.

(** A load on the default configuration, at the level of the body. *)
Lemma load_default_forwarded σ :
  quantization_config = PyNone ->
  (exists tail, calls (snd (load σ)) = calls σ ++ new_config :: tail)
  /\ (forall c m,
        lib_BitsAndBytesConfig lib default_quantization_kwargs (machine σ)
          = (Return c, m) ->
        (exists tail,
           calls (snd (load σ))
           = calls σ ++ new_config :: load_model (PyObj c) :: tail)
        /\ configs (machine (snd (load σ)))
           = configs
               match lib_AutoModelForCausalLM_from_pretrained lib
                       model_name (PyObj c) device_map use_cache
                       trust_remote_code m with
               | (Return _, m1) =>
                   snd (lib_AutoTokenizer_from_pretrained lib model_name
                          trust_remote_code m1)
               | (Raise _, m1) => m1
               end
        /\ (forall e m1,
              lib_AutoModelForCausalLM_from_pretrained lib
                model_name (PyObj c) device_map use_cache
                trust_remote_code m
              = (Raise e, m1) ->
              load σ
              = (Raise e,
                 mkState m1
                   (calls σ ++ [new_config; load_model (PyObj c)])))).
Proof.
  intros Hqc. split; [by apply load_calls_default|].
  intros c m Hc.
  pose proof (configured_default lib _ σ c m Hqc Hc) as Hconf.
  split; [by apply (proj2 (load_calls_default σ Hqc) c m)|].
  split; [by apply (load_configs σ _ _ _ Hconf)|].
  intros e m1 Hm.
  by rewrite (load_model_Raise σ _ _ _ e m1 Hconf Hm), <- app_assoc.
Qed.

(** A load on a supplied configuration, at the level of the body. *)
Lemma load_supplied_forwarded σ :
  quantization_config <> PyNone ->
  (exists tail,
     calls (snd (load σ)) = calls σ ++ load_model quantization_config :: tail
     /\ forall kwargs, call_BitsAndBytesConfig kwargs ∉ tail)
  /\ configs (machine (snd (load σ)))
     = configs
         match lib_AutoModelForCausalLM_from_pretrained lib
                 model_name quantization_config device_map use_cache
                 trust_remote_code (machine σ) with
         | (Return _, m1) =>
             snd (lib_AutoTokenizer_from_pretrained lib model_name
                    trust_remote_code m1)
         | (Raise _, m1) => m1
         end.
Proof.
  intros Hqc. split; [by apply load_calls_supplied|].
  apply (load_configs σ _ _ (calls σ)). by apply configured_supplied.
Qed.

(** C4: neither function handles an exception.  Whatever the constructor
    of the configuration, the model loader, the tokenizer loader or the
    pipeline raises is what the function raises, in the state the failing
    call left, and the failing call is the last call made: nothing is
    retried and nothing is called instead. *)
Theorem library_exceptions_propagate σ e :
  (forall m,
     quantization_config = PyNone ->
     lib_BitsAndBytesConfig lib default_quantization_kwargs (machine σ)
       = (Raise e, m) ->
     instantiate_huggingface_model lib model_name quantization_config
       device_map use_cache trust_remote_code pad_token padding_side σ
     = (Raise e, mkState m (calls σ ++ [new_config])))
  /\ (forall qc m0 cs0 m1,
        configured lib quantization_config σ qc m0 cs0 ->
        lib_AutoModelForCausalLM_from_pretrained lib
          model_name qc device_map use_cache trust_remote_code m0
          = (Raise e, m1) ->
        instantiate_huggingface_model lib model_name quantization_config
          device_map use_cache trust_remote_code pad_token padding_side σ
        = (Raise e, mkState m1 (cs0 ++ [load_model qc])))
  /\ (forall qc m0 cs0 model m1 m2,
        configured lib quantization_config σ qc m0 cs0 ->
        lib_AutoModelForCausalLM_from_pretrained lib
          model_name qc device_map use_cache trust_remote_code m0
          = (Return model, m1) ->
        lib_AutoTokenizer_from_pretrained lib model_name trust_remote_code m1
          = (Raise e, m2) ->
        instantiate_huggingface_model lib model_name quantization_config
          device_map use_cache trust_remote_code pad_token padding_side σ
        = (Raise e, mkState m2 (cs0 ++ [load_model qc; load_tokenizer])))
  /\ (forall (pipeline : Pipeline World) prompt m,
        pipeline prompt (machine σ) = (Raise e, m) ->
        generate_text pipeline prompt σ
        = (Raise e, mkState m (calls σ ++ [call_pipeline prompt]))).
Proof.
  repeat split.
  - intros m. apply load_config_Raise.
  - intros qc m0 cs0 m1. apply load_model_Raise.
  - intros qc m0 cs0 model m1 m2. apply load_tokenizer_Raise.
  - intros pipeline prompt m Hp. apply injective_projections.
    + rewrite generate_text_result, Hp. reflexivity.
    + rewrite generate_text_state, Hp. reflexivity.
Qed.

(** C6: whenever the loader returns a pair, the model is what
    AutoModelForCausalLM.from_pretrained returned and the tokenizer is what
    AutoTokenizer.from_pretrained returned, both called on the loader's own
    model_name: the model loader on the configuration and the machine the
    first statement left, the tokenizer loader on the machine the model
    loader left.  These are the last two calls made. *)
Theorem model_and_tokenizer_from_same_identifier σ model tokenizer σ' :
  instantiate_huggingface_model lib model_name quantization_config
    device_map use_cache trust_remote_code pad_token padding_side σ
  = (Return (model, tokenizer), σ') ->
  exists qc m0 cs0 m1 m2,
    configured lib quantization_config σ qc m0 cs0
    /\ lib_AutoModelForCausalLM_from_pretrained lib
         model_name qc device_map use_cache trust_remote_code m0
       = (Return model, m1)
    /\ lib_AutoTokenizer_from_pretrained lib model_name trust_remote_code m1
       = (Return tokenizer, m2)
    /\ calls σ'
       = cs0 ++ [call_AutoModelForCausalLM_from_pretrained
                   model_name qc device_map use_cache trust_remote_code;
                 call_AutoTokenizer_from_pretrained
                   model_name trust_remote_code].
Proof.
  intros H.
  apply load_Return_inv in H as (qc & m0 & cs0 & m1 & m2 & pad & H).
  destruct H as (Hqc & Hm & Ht & _ & ->).
  exists qc, m0, cs0, m1, m2. by repeat split.
Qed.

(** C7: a supplied quantization_config reaches the model loader as it was
    supplied, together with device_map, use_cache and trust_remote_code;
    no configuration is constructed; and the configuration objects at the
    end are those the library's own calls left, the loader having
    assigned to none of their fields. *)
Theorem supplied_configuration_forwarded_unchanged σ :
  quantization_config <> PyNone ->
  (exists tail,
     calls (snd (instantiate_huggingface_model lib model_name
                   quantization_config device_map use_cache
                   trust_remote_code pad_token padding_side σ))
     = calls σ
       ++ call_AutoModelForCausalLM_from_pretrained model_name
            quantization_config device_map use_cache trust_remote_code
          :: tail
     /\ (tail = []
         \/ tail = [call_AutoTokenizer_from_pretrained
                      model_name trust_remote_code]))
  /\ configs (machine (snd (instantiate_huggingface_model lib model_name
                              quantization_config device_map use_cache
                              trust_remote_code pad_token padding_side σ)))
     = configs
         match lib_AutoModelForCausalLM_from_pretrained lib model_name
                 quantization_config device_map use_cache trust_remote_code
                 (machine σ) with
         | (Return _, m1) =>
             snd (lib_AutoTokenizer_from_pretrained lib model_name
                    trust_remote_code m1)
         | (Raise _, m1) => m1
         end.
Proof.
  intros Hqc.
  destruct (load_frame σ _ _ _ (configured_supplied lib _ σ Hqc))
    as (Hcalls & Hconfigs & _).
  destruct (lib_AutoModelForCausalLM_from_pretrained lib model_name
              quantization_config device_map use_cache trust_remote_code
              (machine σ)) as [[model|e] m1]; simpl in *.
  - split; [|exact Hconfigs]. eexists. split; [exact Hcalls|]. by right.
  - split; [|exact Hconfigs]. eexists. split; [exact Hcalls|]. by left.
Qed.

End Loader.

(** ** Calls of the loader with arguments left out *)

Section LoaderCall.
Context {World : Type} (lib : Transformers World).
Variables (model_name : string) (kw : Kwargs).
Implicit Types (σ : State World) (model tokenizer : loc).

Local Abbreviation run :=
  (instantiate_huggingface_model_call lib model_name kw).



(** C3: when quantization_config is left out or given as None, the first
    call is the constructor of BitsAndBytesConfig with load_in_8bit=True and
    low_cpu_mem_usage=True, and the object it returns is the configuration
    the model loader is run on, on the machine the constructor left: the
    next call is that load, the configuration objects at the end are those
    the library's loaders left when run from there, and what the model
    loader raises there is what the call raises.  When a
    quantization_config is given, the first call is the model loader on
    that configuration, run on the machine as it was, and no configuration
    is constructed. *)
Theorem default_quantization_config σ :
  match kw_quantization_config kw with
  | None | Some PyNone =>
      (exists tail,
         calls (snd (instantiate_huggingface_model_call lib model_name kw σ))
         = calls σ
           ++ call_BitsAndBytesConfig
                [("load_in_8bit", PyBool true);
                 ("low_cpu_mem_usage", PyBool true)]
              :: tail)
      /\ (forall c m,
            lib_BitsAndBytesConfig lib
              [("load_in_8bit", PyBool true);
               ("low_cpu_mem_usage", PyBool true)] (machine σ)
              = (Return c, m) ->
            (exists tail,
               calls (snd (instantiate_huggingface_model_call lib
                             model_name kw σ))
               = calls σ
                 ++ call_BitsAndBytesConfig
                      [("load_in_8bit", PyBool true);
                       ("low_cpu_mem_usage", PyBool true)]
                    :: call_AutoModelForCausalLM_from_pretrained model_name
                         (PyObj c)
                         (default (PyStr "auto") (kw_device_map kw))
                         (default (PyBool true) (kw_use_cache kw))
                         (default PyNone (kw_trust_remote_code kw))
                    :: tail)
            /\ configs
                 (machine (snd (instantiate_huggingface_model_call lib
                                  model_name kw σ)))
               = configs
                   match lib_AutoModelForCausalLM_from_pretrained lib
                           model_name (PyObj c)
                           (default (PyStr "auto") (kw_device_map kw))
                           (default (PyBool true) (kw_use_cache kw))
                           (default PyNone (kw_trust_remote_code kw)) m with
                   | (Return _, m1) =>
                       snd (lib_AutoTokenizer_from_pretrained lib model_name
                              (default PyNone (kw_trust_remote_code kw)) m1)
                   | (Raise _, m1) => m1
                   end
            /\ (forall e m1,
                  lib_AutoModelForCausalLM_from_pretrained lib
                    model_name (PyObj c)
                    (default (PyStr "auto") (kw_device_map kw))
                    (default (PyBool true) (kw_use_cache kw))
                    (default PyNone (kw_trust_remote_code kw)) m
                  = (Raise e, m1) ->
                  instantiate_huggingface_model_call lib model_name kw σ
                  = (Raise e,
                     mkState m1
                       (calls σ
                        ++ [call_BitsAndBytesConfig
                              [("load_in_8bit", PyBool true);
                               ("low_cpu_mem_usage", PyBool true)];
                            call_AutoModelForCausalLM_from_pretrained
                              model_name (PyObj c)
                              (default (PyStr "auto") (kw_device_map kw))
                              (default (PyBool true) (kw_use_cache kw))
                              (default PyNone
                                 (kw_trust_remote_code kw))]))))
  | Some quantization_config =>
      (exists tail,
         calls (snd (instantiate_huggingface_model_call lib model_name kw σ))
         = calls σ
           ++ call_AutoModelForCausalLM_from_pretrained model_name
                quantization_config
                (default (PyStr "auto") (kw_device_map kw))
                (default (PyBool true) (kw_use_cache kw))
                (default PyNone (kw_trust_remote_code kw))
              :: tail
         /\ forall kwargs, call_BitsAndBytesConfig kwargs ∉ tail)
      /\ configs
           (machine (snd (instantiate_huggingface_model_call lib
                            model_name kw σ)))
         = configs
             match lib_AutoModelForCausalLM_from_pretrained lib
                     model_name quantization_config
                     (default (PyStr "auto") (kw_device_map kw))
                     (default (PyBool true) (kw_use_cache kw))
                     (default PyNone (kw_trust_remote_code kw))
                     (machine σ) with
             | (Return _, m1) =>
                 snd (lib_AutoTokenizer_from_pretrained lib model_name
                        (default PyNone (kw_trust_remote_code kw)) m1)
             | (Raise _, m1) => m1
             end
  end.
Proof.
  unfold instantiate_huggingface_model_call.
  destruct (kw_quantization_config kw) as [[]|]; simpl;
    solve [by apply load_default_forwarded
          | by apply load_supplied_forwarded].
Qed.


End LoaderCall.

(** ** The functions on the concrete library *)

Section Runs.
Import Demo.

(** C1, on the code: the pipeline returns two candidates for the prompt and
    generate_text computes the first one's text, but the call evaluates to
    None, not to that text. *)
Theorem generate_text_returns_None :
  fst (completing "Write code" (machine boot))
    = Return [ {["generated_text" := PyStr "Write code or not."]};
               {["generated_text" := PyStr "Write code"]} ]
  /\ fst (generate_text completing "Write code" boot) = Return PyNone.
Proof. split; reflexivity. Qed.

(** The generator on a pipeline that returns nothing, on one whose
    records lack the key, and on one that completes the prompt. *)
Lemma generate_text_indexing_witness :
  generate_text silent "Write code" boot
    = (Raise IndexError,
       mkState (bump (machine boot)) [call_pipeline "Write code"])
  /\ generate_text summarizing "Write code" boot
     = (Raise (KeyError "generated_text"),
        mkState (bump (machine boot)) [call_pipeline "Write code"])
  /\ exists first rest text,
       fst (completing "Write code" (machine boot)) = Return (first :: rest)
       /\ first !! "generated_text" = Some text.
Proof.
  split; [|split].
  - apply (proj1 (generate_text_indexing silent "Write code" boot)).
    reflexivity.
  - apply (proj1 (proj2 (generate_text_indexing summarizing "Write code" boot))
             {["summary_text" := PyStr "Write code"]} []).
    + reflexivity.
    + reflexivity.
  - apply (proj2 (proj2 (generate_text_indexing completing "Write code" boot))).
    exists PyNone. reflexivity.
Defined.


(** On the notebook's call the constructor returns object 1, the model
    loader is called next with that object, and the configuration objects
    at the end are the one the constructor built; on an unknown identifier
    the call raises what the model loader raised on that object. *)
Lemma default_quantization_config_witness :
  (exists tail,
     calls (snd (instantiate_huggingface_model_call hub
                   "Deci/DeciCoder-6B" trusting boot))
     = call_BitsAndBytesConfig
         [("load_in_8bit", PyBool true); ("low_cpu_mem_usage", PyBool true)]
       :: call_AutoModelForCausalLM_from_pretrained "Deci/DeciCoder-6B"
            (PyObj 1%positive) (PyStr "auto") (PyBool true) (PyBool true)
       :: tail)
  /\ configs
       (machine (snd (instantiate_huggingface_model_call hub
                        "Deci/DeciCoder-6B" trusting boot)))
     = {[1%positive := list_to_map default_quantization_kwargs]}
  /\ instantiate_huggingface_model_call hub "no/such-model" trusting boot
     = (Raise (mkExn "OSError" "no/such-model"),
        mkState
          (bump (snd (new_config default_quantization_kwargs (machine boot))))
          [call_BitsAndBytesConfig
             [("load_in_8bit", PyBool true);
              ("low_cpu_mem_usage", PyBool true)];
           call_AutoModelForCausalLM_from_pretrained "no/such-model"
             (PyObj 1%positive) (PyStr "auto") (PyBool true) (PyBool true)]).
Proof.
  split; [|split].
  - refine (proj1 (proj2 (default_quantization_config hub "Deci/DeciCoder-6B"
                            trusting boot) 1%positive
                     (snd (new_config default_quantization_kwargs
                             (machine boot))) _)).
    vm_compute. reflexivity.
  - refine (proj1 (proj2 (proj2 (default_quantization_config hub
                                   "Deci/DeciCoder-6B" trusting boot)
                            1%positive
                            (snd (new_config default_quantization_kwargs
                                    (machine boot))) _))).
    vm_compute. reflexivity.
  - refine (proj2 (proj2 (proj2 (default_quantization_config hub
                                   "no/such-model" trusting boot)
                            1%positive
                            (snd (new_config default_quantization_kwargs
                                    (machine boot))) _))
              (mkExn "OSError" "no/such-model")
              (bump (snd (new_config default_quantization_kwargs
                            (machine boot)))) _).
    + vm_compute. reflexivity.
    + vm_compute. reflexivity.
Defined.

(** The four places an exception can come from: a missing backend, an
    unknown model identifier, an identifier with weights and no tokenizer,
    a pipeline out of memory. *)
Lemma library_exceptions_propagate_witness :
  instantiate_huggingface_model hub_without_backend "Deci/DeciCoder-6B"
    PyNone (PyStr "auto") (PyBool true) PyNone PyNone (PyStr "left") boot
    = (Raise (mkExn "ImportError" "bitsandbytes"),
       mkState (bump (machine boot))
         [call_BitsAndBytesConfig default_quantization_kwargs])
  /\ instantiate_huggingface_model hub "no/such-model"
       (PyObj 5%positive) (PyStr "auto") (PyBool true) PyNone PyNone
       (PyStr "left") boot_with_config
     = (Raise (mkExn "OSError" "no/such-model"),
        mkState (bump (machine boot_with_config))
          [call_AutoModelForCausalLM_from_pretrained "no/such-model"
             (PyObj 5%positive) (PyStr "auto") (PyBool true) PyNone])
  /\ instantiate_huggingface_model hub "weights-only"
       PyNone (PyStr "auto") (PyBool true) PyNone PyNone (PyStr "left") boot
     = (Raise (mkExn "OSError" "weights-only"),
        mkState
          (bump (bump (snd (new_config default_quantization_kwargs
                              (machine boot)))))
          ([call_BitsAndBytesConfig default_quantization_kwargs]
           ++ [call_AutoModelForCausalLM_from_pretrained "weights-only"
                 (PyObj 1%positive) (PyStr "auto") (PyBool true) PyNone;
               call_AutoTokenizer_from_pretrained "weights-only" PyNone]))
  /\ generate_text exhausted "Write code" boot
     = (Raise (mkExn "OutOfMemoryError" "CUDA out of memory"),
        mkState (bump (machine boot)) [call_pipeline "Write code"]).
Proof.
  split; [|split; [|split]].
  - apply (proj1 (library_exceptions_propagate hub_without_backend
                    "Deci/DeciCoder-6B" PyNone (PyStr "auto") (PyBool true)
                    PyNone PyNone (PyStr "left") boot
                    (mkExn "ImportError" "bitsandbytes"))).
    + reflexivity.
    + reflexivity.
  - apply (proj1 (proj2 (library_exceptions_propagate hub
                    "no/such-model" (PyObj 5%positive) (PyStr "auto")
                    (PyBool true) PyNone PyNone (PyStr "left")
                    boot_with_config (mkExn "OSError" "no/such-model")))
             (PyObj 5%positive) (machine boot_with_config) []).
    + apply configured_supplied. discriminate.
    + reflexivity.
  - apply (proj1 (proj2 (proj2 (library_exceptions_propagate hub
                    "weights-only" PyNone (PyStr "auto") (PyBool true)
                    PyNone PyNone (PyStr "left") boot
                    (mkExn "OSError" "weights-only"))))
             (PyObj 1%positive)
             (snd (new_config default_quantization_kwargs (machine boot)))
             ([] ++ [call_BitsAndBytesConfig default_quantization_kwargs])
             13%positive
             (bump (snd (new_config default_quantization_kwargs
                           (machine boot))))).
    + apply (configured_default hub PyNone boot 1%positive); reflexivity.
    + reflexivity.
    + reflexivity.
  - apply (proj2 (proj2 (proj2 (library_exceptions_propagate hub
                    "Deci/DeciCoder-6B" PyNone (PyStr "auto") (PyBool true)
                    PyNone PyNone (PyStr "left") boot
                    (mkExn "OutOfMemoryError" "CUDA out of memory"))))
             exhausted "Write code").
    reflexivity.
Defined.

(** The notebook's call returns model 11 and tokenizer 1, and both come
    from loads of "Deci/DeciCoder-6B". *)
Lemma model_and_tokenizer_from_same_identifier_witness :
  exists qc m0 cs0 m1 m2,
    configured hub PyNone boot qc m0 cs0
    /\ load_model "Deci/DeciCoder-6B" qc (PyStr "auto") (PyBool true)
         (PyBool true) m0 = (Return 11%positive, m1)
    /\ load_tokenizer "Deci/DeciCoder-6B" (PyBool true) m1
       = (Return 1%positive, m2)
    /\ calls (snd (instantiate_huggingface_model hub "Deci/DeciCoder-6B"
                     PyNone (PyStr "auto") (PyBool true) (PyBool true)
                     PyNone (PyStr "left") boot))
       = cs0 ++ [call_AutoModelForCausalLM_from_pretrained
                   "Deci/DeciCoder-6B" qc (PyStr "auto") (PyBool true)
                   (PyBool true);
                 call_AutoTokenizer_from_pretrained
                   "Deci/DeciCoder-6B" (PyBool true)].
Proof.
  apply (model_and_tokenizer_from_same_identifier hub "Deci/DeciCoder-6B"
           PyNone (PyStr "auto") (PyBool true) (PyBool true) PyNone
           (PyStr "left") boot 11%positive 1%positive).
  vm_compute. reflexivity.
Defined.

(** A call on a configuration object the caller built: it is forwarded as
    it is, and the configuration objects are the same at the end. *)
Lemma supplied_configuration_forwarded_unchanged_witness :
  (exists tail,
     calls (snd (instantiate_huggingface_model hub "Deci/DeciCoder-6B"
                   (PyObj 5%positive) (PyStr "cpu") (PyBool false)
                   (PyBool true) PyNone (PyStr "left") boot_with_config))
     = call_AutoModelForCausalLM_from_pretrained "Deci/DeciCoder-6B"
         (PyObj 5%positive) (PyStr "cpu") (PyBool false) (PyBool true)
       :: tail
     /\ (tail = []
         \/ tail = [call_AutoTokenizer_from_pretrained
                      "Deci/DeciCoder-6B" (PyBool true)]))
  /\ configs
       (machine (snd (instantiate_huggingface_model hub "Deci/DeciCoder-6B"
                        (PyObj 5%positive) (PyStr "cpu") (PyBool false)
                        (PyBool true) PyNone (PyStr "left")
                        boot_with_config)))
     = {[5%positive := four_bit]}.
Proof.
  apply (supplied_configuration_forwarded_unchanged hub "Deci/DeciCoder-6B"
           (PyObj 5%positive) (PyStr "cpu") (PyBool false) (PyBool true)
           PyNone (PyStr "left") boot_with_config).
  discriminate.
Defined.



End Runs.


(** * Further properties *)

(** ** What a load assigns to *)

Section LoaderFrame.
Context {World : Type} (lib : Transformers World).
Variables (model_name : string).
Variables (quantization_config device_map use_cache trust_remote_code : PyVal).
Variables (pad_token padding_side : PyVal).
Implicit Types (σ : State World) (m : Machine World) (model tokenizer : loc).

(** X1: a load that returns has assigned to no tokenizer but the one it
    returns, and to no configuration object: every other tokenizer and
    every configuration object is as the tokenizer loader left it, that
    loader having run on the machine the model loader left. *)
Theorem load_assigns_to_returned_tokenizer_only σ model tokenizer σ' :
  instantiate_huggingface_model lib model_name quantization_config
    device_map use_cache trust_remote_code pad_token padding_side σ
  = (Return (model, tokenizer), σ') ->
  exists qc m0 cs0 m1 m2,
    configured lib quantization_config σ qc m0 cs0
    /\ lib_AutoModelForCausalLM_from_pretrained lib
         model_name qc device_map use_cache trust_remote_code m0
       = (Return model, m1)
    /\ lib_AutoTokenizer_from_pretrained lib model_name trust_remote_code m1
       = (Return tokenizer, m2)
    /\ (forall t,
          t <> tokenizer ->
          tokenizers (machine σ') !! t = tokenizers m2 !! t)
    /\ configs (machine σ') = configs m2.
Proof.
  intros H.
  apply load_Return_inv in H as (qc & m0 & cs0 & m1 & m2 & pad & H).
  destruct H as (Hqc & Hm & Ht & _ & ->).
  exists qc, m0, cs0, m1, m2. simpl.
  split; [exact Hqc|]. split; [exact Hm|]. split; [exact Ht|].
  split; [|reflexivity].
  intros t Hne. unfold set_tok_attr. simpl.
  rewrite lookup_insert_ne by congruence.
  by rewrite lookup_insert_ne by congruence.
Qed.

End LoaderFrame.

(** ** What generate_text can and cannot do *)

Section GeneratorOutcomes.
Context {World : Type}.
Implicit Types (pipeline : Pipeline World) (prompt : string) (σ : State World).

(** X3: generate_text has four outcomes and no other: it returns None, it
    raises IndexError, it raises KeyError on 'generated_text', or it raises
    what the pipeline raised.  It never returns the text. *)
Theorem generate_text_outcomes pipeline prompt σ :
  fst (generate_text pipeline prompt σ) = Return PyNone
  \/ fst (generate_text pipeline prompt σ) = Raise IndexError
  \/ fst (generate_text pipeline prompt σ) = Raise (KeyError "generated_text")
  \/ exists e,
       fst (pipeline prompt (machine σ)) = Raise e
       /\ fst (generate_text pipeline prompt σ) = Raise e.
Proof.
  rewrite generate_text_result.
  destruct (fst (pipeline prompt (machine σ))) as [[|first rest]|e].
  - right. by left.
  - destruct (first !! "generated_text"); [by left | right; right; by left].
  - right. right. right. by exists e.
Qed.

(** X4: of what the pipeline returns, generate_text sees only whether the first
    record has the key: the text under the key, the other keys of the
    record and the candidates after the first change neither its result
    nor the state it leaves. *)
Theorem generate_text_first_key_only pipeline pipeline' prompt σ
    first rest first' rest' m :
  pipeline prompt (machine σ) = (Return (first :: rest), m) ->
  pipeline' prompt (machine σ) = (Return (first' :: rest'), m) ->
  (is_Some (first !! "generated_text")
   <-> is_Some (first' !! "generated_text")) ->
  generate_text pipeline' prompt σ = generate_text pipeline prompt σ.
Proof.
  intros Hp Hp' Hkey. apply injective_projections.
  - rewrite !generate_text_result, Hp, Hp'. simpl.
    destruct (first !! "generated_text") as [text|],
             (first' !! "generated_text") as [text'|]; try reflexivity.
    + destruct Hkey as [Hkey _].
      destruct Hkey as [? Hn]; [by eexists | discriminate Hn].
    + destruct Hkey as [_ Hkey].
      destruct Hkey as [? Hn]; [by eexists | discriminate Hn].
  - rewrite !generate_text_state, Hp, Hp'. reflexivity.
Qed.

End GeneratorOutcomes.

(** ** The cells of the notebook *)

Section CellsProperties.
Context {World : Type} (lib : Transformers World) (gen : Generation World).
Implicit Types (σ : State World) (deci_generator : Pipeline World).

Lemma generate_text_calls deci_generator prompt σ r σ' :
  generate_text deci_generator prompt σ = (r, σ') ->
  calls σ' = calls σ ++ [call_pipeline prompt].
Proof.
  intros H.
  pose proof (generate_text_state deci_generator prompt σ) as Hs.
  rewrite H in Hs. simpl in Hs. by subst σ'.
Qed.

Lemma generate_text_Return deci_generator prompt σ v σ' :
  generate_text deci_generator prompt σ = (Return v, σ') -> v = PyNone.
Proof.
  intros H.
  pose proof (generate_text_result deci_generator prompt σ) as Hr.
  rewrite H in Hr. simpl in Hr.
  destruct (fst (deci_generator prompt (machine σ))) as [[|first rest]|e];
    try discriminate Hr.
  destruct (first !! "generated_text"); [congruence | discriminate Hr].
Qed.

(** The calls of a run over a list of prompts: the pipeline on the first
    [k] prompts in order, all of them when the run returns, fewer only
    when a call raised. *)
Lemma run_prompts_calls deci_generator prompts σ :
  prompts <> [] ->
  exists k,
    1 <= k <= length prompts
    /\ calls (snd (run_prompts deci_generator prompts σ))
       = calls σ ++ (call_pipeline <$> take k prompts)
    /\ (forall v,
          fst (run_prompts deci_generator prompts σ) = Return v ->
          k = length prompts /\ v = PyNone)
    /\ (k < length prompts ->
        exists e, fst (run_prompts deci_generator prompts σ) = Raise e).
Proof.
  revert σ. induction prompts as [|prompt rest IH]; intros σ Hne; [done|].
  destruct rest as [|prompt' rest].
  - exists 1. simpl.
    destruct (generate_text deci_generator prompt σ) as [r σ'] eqn:Hg.
    simpl. split; [lia|]. split; [by eapply generate_text_calls|].
    split; [|lia].
    intros v ->. split; [reflexivity|]. by eapply generate_text_Return.
  - change (run_prompts deci_generator (prompt :: prompt' :: rest))
      with (bind (generate_text deci_generator prompt)
              (fun _ => run_prompts deci_generator (prompt' :: rest))).
    unfold bind at 1 2 3.
    destruct (generate_text deci_generator prompt σ) as [[v|e] σ'] eqn:Hg.
    + destruct (IH σ') as (k & Hk & Hcalls & Hret & Hraise); [done|].
      exists (S k). split; [simpl in *; lia|].
      split.
      { rewrite Hcalls, (generate_text_calls _ _ _ _ _ Hg), <- app_assoc.
        reflexivity. }
      split.
      { intros w Hw. destruct (Hret w Hw) as [-> ->]. by split. }
      intros Hlt. apply Hraise. simpl in *. lia.
    + exists 1. simpl. split; [lia|].
      split; [by eapply generate_text_calls|].
      split; [intros w Hw; discriminate Hw|].
      intros _. by exists e.
Qed.

Lemma prompt_cells_run_prompts deci_generator :
  prompt_cells deci_generator = run_prompts deci_generator notebook_prompts.
Proof. reflexivity. Qed.

(** X5: the five prompt cells call the pipeline on the notebook's prompts in
    the notebook's order, one call a cell, and stop at the first cell that
    raises: the calls made are the first [k] of the five, with [k] at least
    one; when the cells return, all five calls were made and the value is
    None. *)
Theorem prompt_cells_calls deci_generator σ :
  exists k,
    1 <= k <= 5
    /\ calls (snd (prompt_cells deci_generator σ))
       = calls σ ++ (call_pipeline <$> take k notebook_prompts)
    /\ (forall v,
          fst (prompt_cells deci_generator σ) = Return v ->
          k = 5 /\ v = PyNone)
    /\ (k < 5 -> exists e, fst (prompt_cells deci_generator σ) = Raise e).
Proof.
  rewrite prompt_cells_run_prompts.
  apply (run_prompts_calls deci_generator notebook_prompts σ). discriminate.
Qed.

(** The loading cell, when it returns: the three calls it made, each on
    what the one before returned and left, and the tokenizer it leaves. *)
Lemma load_cell_Return_inv σ model tokenizer σ1 :
  load_cell lib σ = (Return (model, tokenizer), σ1) ->
  exists c m0 m1 mt eos_token,
    lib_BitsAndBytesConfig lib
      [("load_in_8bit", PyBool true); ("low_cpu_mem_usage", PyBool true)]
      (machine σ) = (Return c, m0)
    /\ lib_AutoModelForCausalLM_from_pretrained lib "Deci/DeciCoder-6B"
         (PyObj c) (PyStr "auto") (PyBool true) (PyBool true) m0
       = (Return model, m1)
    /\ lib_AutoTokenizer_from_pretrained lib "Deci/DeciCoder-6B"
         (PyBool true) m1
       = (Return tokenizer, mt)
    /\ tok_attrs mt tokenizer !! "eos_token" = Some eos_token
    /\ calls σ1
       = calls σ
         ++ [call_BitsAndBytesConfig
               [("load_in_8bit", PyBool true);
                ("low_cpu_mem_usage", PyBool true)];
             call_AutoModelForCausalLM_from_pretrained "Deci/DeciCoder-6B"
               (PyObj c) (PyStr "auto") (PyBool true) (PyBool true);
             call_AutoTokenizer_from_pretrained "Deci/DeciCoder-6B"
               (PyBool true)]
    /\ tok_attrs (machine σ1) tokenizer !! "eos_token" = Some eos_token
    /\ tok_attrs (machine σ1) tokenizer !! "pad_token" = Some eos_token
    /\ tok_attrs (machine σ1) tokenizer !! "padding_side"
       = Some (PyStr "left").
Proof.
  unfold load_cell, instantiate_huggingface_model_call. simpl. intros H.
  apply load_Return_inv in H as (qc & m0 & cs0 & m1 & mt & pad & H).
  destruct H as (Hqc & Hm & Ht & Hpad & ->).
  destruct Hqc as [Hqc | c m0 _ Hc]; [done|].
  destruct Hpad as [Hpad | eos _ He]; [done|].
  exists c, m0, m1, mt, eos. simpl.
  split; [exact Hc|]. split; [exact Hm|]. split; [exact Ht|].
  split; [exact He|].
  split; [by rewrite <- app_assoc|].
  rewrite !tok_attrs_set_same.
  split; [by simplify_map_eq|]. split; by simplify_map_eq.
Qed.

(** The pipeline cell, when it returns: the streamer it built, the
    arguments of the pipeline and its two calls. *)
Lemma generator_cell_Return_inv model tokenizer σ1 deci_generator σ' :
  generator_cell gen model tokenizer σ1 = (Return deci_generator, σ') ->
  exists streamer m2,
    lib_TextStreamer gen tokenizer (machine σ1) = (Return streamer, m2)
    /\ lib_pipeline gen "text-generation"
         [("model", arg_model model);
          ("tokenizer", arg_tokenizer tokenizer);
          ("device_map", arg_val (PyStr "auto"));
          ("max_length", arg_int 2048);
          ("temperature", arg_float 1 (-3));
          ("do_sample", arg_val (PyBool true));
          ("streamer", arg_streamer streamer)] m2
       = (Return deci_generator, machine σ')
    /\ calls σ'
       = calls σ1
         ++ [call_TextStreamer tokenizer;
             call_transformers_pipeline "text-generation"
               [("model", arg_model model);
                ("tokenizer", arg_tokenizer tokenizer);
                ("device_map", arg_val (PyStr "auto"));
                ("max_length", arg_int 2048);
                ("temperature", arg_float 1 (-3));
                ("do_sample", arg_val (PyBool true));
                ("streamer", arg_streamer streamer)]].
Proof.
  unfold generator_cell. intros H.
  apply bind_Return_inv in H as (streamer & σ2 & Hs & H).
  unfold TextStreamer, extern in Hs.
  destruct (lib_TextStreamer gen tokenizer (machine σ1)) as [rs m2] eqn:Es.
  simplify_eq.
  unfold pipeline, extern in H. simpl in H.
  destruct (lib_pipeline gen _ _ m2) as [rp m3] eqn:Ep. simplify_eq.
  exists streamer, m2. simpl. split; [reflexivity|]. split; [exact Ep|].
  by rewrite <- app_assoc.
Qed.

(** X6: when the loading cell and the pipeline cell return, five calls
    were made, each on what the ones before returned and left: the
    constructor of the default configuration; the model load of
    "Deci/DeciCoder-6B" on the configuration the constructor returned, with
    device_map "auto", use_cache True and trust_remote_code True; the
    tokenizer load with trust_remote_code True; TextStreamer on the
    tokenizer that load returned, which by then has the end-of-sequence
    token the loader found on it as pad token and pads on the left; and
    the pipeline factory on the returned model, the same tokenizer and that
    streamer. *)
Theorem setup_cells_build_on_loaded_pair σ deci_generator σ' :
  setup_cells lib gen σ = (Return deci_generator, σ') ->
  exists c m0 model m1 tokenizer mt eos_token σ1 streamer m2,
    lib_BitsAndBytesConfig lib
      [("load_in_8bit", PyBool true); ("low_cpu_mem_usage", PyBool true)]
      (machine σ) = (Return c, m0)
    /\ lib_AutoModelForCausalLM_from_pretrained lib "Deci/DeciCoder-6B"
         (PyObj c) (PyStr "auto") (PyBool true) (PyBool true) m0
       = (Return model, m1)
    /\ lib_AutoTokenizer_from_pretrained lib "Deci/DeciCoder-6B"
         (PyBool true) m1
       = (Return tokenizer, mt)
    /\ tok_attrs mt tokenizer !! "eos_token" = Some eos_token
    /\ load_cell lib σ = (Return (model, tokenizer), σ1)
    /\ tok_attrs (machine σ1) tokenizer !! "eos_token" = Some eos_token
    /\ tok_attrs (machine σ1) tokenizer !! "pad_token" = Some eos_token
    /\ tok_attrs (machine σ1) tokenizer !! "padding_side"
       = Some (PyStr "left")
    /\ lib_TextStreamer gen tokenizer (machine σ1) = (Return streamer, m2)
    /\ lib_pipeline gen "text-generation"
         [("model", arg_model model);
          ("tokenizer", arg_tokenizer tokenizer);
          ("device_map", arg_val (PyStr "auto"));
          ("max_length", arg_int 2048);
          ("temperature", arg_float 1 (-3));
          ("do_sample", arg_val (PyBool true));
          ("streamer", arg_streamer streamer)] m2
       = (Return deci_generator, machine σ')
    /\ calls σ'
       = calls σ
         ++ [call_BitsAndBytesConfig
               [("load_in_8bit", PyBool true);
                ("low_cpu_mem_usage", PyBool true)];
             call_AutoModelForCausalLM_from_pretrained "Deci/DeciCoder-6B"
               (PyObj c) (PyStr "auto") (PyBool true) (PyBool true);
             call_AutoTokenizer_from_pretrained "Deci/DeciCoder-6B"
               (PyBool true);
             call_TextStreamer tokenizer;
             call_transformers_pipeline "text-generation"
               [("model", arg_model model);
                ("tokenizer", arg_tokenizer tokenizer);
                ("device_map", arg_val (PyStr "auto"));
                ("max_length", arg_int 2048);
                ("temperature", arg_float 1 (-3));
                ("do_sample", arg_val (PyBool true));
                ("streamer", arg_streamer streamer)]].
Proof.
  unfold setup_cells. intros H.
  apply bind_Return_inv in H as ([model tokenizer] & σ1 & Hload & Hgen).
  destruct (load_cell_Return_inv _ _ _ _ Hload)
    as (c & m0 & m1 & mt & eos & Hc & Hm & Ht & He & Hcalls & Hattrs).
  destruct Hattrs as (Heos & Hpad & Hside).
  destruct (generator_cell_Return_inv _ _ _ _ _ Hgen)
    as (streamer & m2 & Hs & Hp & Hcalls').
  exists c, m0, model, m1, tokenizer, mt, eos, σ1, streamer, m2.
  repeat (split; [assumption|]).
  by rewrite Hcalls', Hcalls, <- app_assoc.
Qed.

(** X7: a run of the whole notebook that returns has made ten calls into
    the library, each on what the ones before returned: the constructor
    of the default configuration, the model load and the tokenizer load of
    "Deci/DeciCoder-6B", TextStreamer on the loaded tokenizer, the pipeline
    factory on the loaded model, that tokenizer and that streamer, and the
    pipeline once on each of the five prompts in order; its value is
    None. *)
Theorem notebook_complete_run σ v σ' :
  notebook lib gen σ = (Return v, σ') ->
  v = PyNone
  /\ exists c m0 model m1 tokenizer mt σ1 streamer m2,
       lib_BitsAndBytesConfig lib
         [("load_in_8bit", PyBool true); ("low_cpu_mem_usage", PyBool true)]
         (machine σ) = (Return c, m0)
       /\ lib_AutoModelForCausalLM_from_pretrained lib "Deci/DeciCoder-6B"
            (PyObj c) (PyStr "auto") (PyBool true) (PyBool true) m0
          = (Return model, m1)
       /\ lib_AutoTokenizer_from_pretrained lib "Deci/DeciCoder-6B"
            (PyBool true) m1
          = (Return tokenizer, mt)
       /\ load_cell lib σ = (Return (model, tokenizer), σ1)
       /\ lib_TextStreamer gen tokenizer (machine σ1)
          = (Return streamer, m2)
       /\ calls σ'
          = calls σ
            ++ [call_BitsAndBytesConfig
                  [("load_in_8bit", PyBool true);
                   ("low_cpu_mem_usage", PyBool true)];
                call_AutoModelForCausalLM_from_pretrained
                  "Deci/DeciCoder-6B"
                  (PyObj c) (PyStr "auto") (PyBool true) (PyBool true);
                call_AutoTokenizer_from_pretrained "Deci/DeciCoder-6B"
                  (PyBool true);
                call_TextStreamer tokenizer;
                call_transformers_pipeline "text-generation"
                  [("model", arg_model model);
                   ("tokenizer", arg_tokenizer tokenizer);
                   ("device_map", arg_val (PyStr "auto"));
                   ("max_length", arg_int 2048);
                   ("temperature", arg_float 1 (-3));
                   ("do_sample", arg_val (PyBool true));
                   ("streamer", arg_streamer streamer)]]
            ++ (call_pipeline <$> notebook_prompts).
Proof.
  unfold notebook. intros H.
  apply bind_Return_inv in H as (deci_generator & σs & Hsetup & Hcells).
  unfold setup_cells in Hsetup.
  apply bind_Return_inv in Hsetup
    as ([model tokenizer] & σ1 & Hload & Hgen).
  destruct (load_cell_Return_inv _ _ _ _ Hload)
    as (c & m0 & m1 & mt & eos & Hc & Hm & Ht & _ & Hcalls1 & _).
  destruct (generator_cell_Return_inv _ _ _ _ _ Hgen)
    as (streamer & m2 & Hs & _ & Hcalls).
  rewrite prompt_cells_run_prompts in Hcells.
  destruct (run_prompts_calls deci_generator notebook_prompts σs)
    as (k & _ & Hk & Hret & _); [discriminate|].
  rewrite Hcells in Hk, Hret. simpl in Hk, Hret.
  destruct (Hret v eq_refl) as [-> ->].
  split; [reflexivity|].
  exists c, m0, model, m1, tokenizer, mt, σ1, streamer, m2.
  repeat (split; [assumption|]).
  rewrite Hk, Hcalls, Hcalls1, <- !app_assoc. reflexivity.
Qed.

End CellsProperties.

(** ** The further properties on the concrete library *)

Section FurtherRuns.
Import Demo DemoCells.

(** The notebook's load, with every argument bound: it returns model 11
    and tokenizer 1, and no other tokenizer has been assigned to. *)
Lemma load_assigns_to_returned_tokenizer_only_witness :
  exists qc m0 cs0 m1 m2,
    configured hub PyNone boot qc m0 cs0
    /\ load_model "Deci/DeciCoder-6B" qc (PyStr "auto") (PyBool true)
         (PyBool true) m0 = (Return 11%positive, m1)
    /\ load_tokenizer "Deci/DeciCoder-6B" (PyBool true) m1
       = (Return 1%positive, m2)
    /\ (forall t,
          t <> 1%positive ->
          tokenizers
            (machine (snd (instantiate_huggingface_model hub
                             "Deci/DeciCoder-6B" PyNone (PyStr "auto")
                             (PyBool true) (PyBool true) PyNone
                             (PyStr "left") boot))) !! t
          = tokenizers m2 !! t)
    /\ configs
         (machine (snd (instantiate_huggingface_model hub
                          "Deci/DeciCoder-6B" PyNone (PyStr "auto")
                          (PyBool true) (PyBool true) PyNone
                          (PyStr "left") boot)))
       = configs m2.
Proof.
  apply (load_assigns_to_returned_tokenizer_only hub "Deci/DeciCoder-6B"
           PyNone (PyStr "auto") (PyBool true) (PyBool true) PyNone
           (PyStr "left") boot 11%positive 1%positive).
  vm_compute. reflexivity.
Defined.

(** A pipeline that returns the prompt alone, with a score beside it, and
    one that returns two completions: generate_text does the same on both. *)
Lemma generate_text_first_key_only_witness :
  generate_text echoing "Write code" boot
  = generate_text completing "Write code" boot.
Proof.
  apply (generate_text_first_key_only completing echoing "Write code" boot
           {["generated_text" := PyStr "Write code or not."]}
           [ {["generated_text" := PyStr "Write code"]} ]
           (<["score" := PyStr "0.5"]>
              {["generated_text" := PyStr "Write code"]})
           []
           (bump (machine boot))).
  - reflexivity.
  - reflexivity.
  - split; intros _; eexists; vm_compute; reflexivity.
Defined.

(** The first two cells on the concrete library: they return the
    completing pipeline, after five calls. *)
Lemma setup_cells_build_on_loaded_pair_witness :
  exists c m0 model m1 tokenizer mt eos_token σ1 streamer m2,
    new_config
      [("load_in_8bit", PyBool true); ("low_cpu_mem_usage", PyBool true)]
      (machine boot) = (Return c, m0)
    /\ load_model "Deci/DeciCoder-6B"
         (PyObj c) (PyStr "auto") (PyBool true) (PyBool true) m0
       = (Return model, m1)
    /\ load_tokenizer "Deci/DeciCoder-6B" (PyBool true) m1
       = (Return tokenizer, mt)
    /\ tok_attrs mt tokenizer !! "eos_token" = Some eos_token
    /\ load_cell hub boot = (Return (model, tokenizer), σ1)
    /\ tok_attrs (machine σ1) tokenizer !! "eos_token" = Some eos_token
    /\ tok_attrs (machine σ1) tokenizer !! "pad_token" = Some eos_token
    /\ tok_attrs (machine σ1) tokenizer !! "padding_side"
       = Some (PyStr "left")
    /\ lib_TextStreamer studio tokenizer (machine σ1) = (Return streamer, m2)
    /\ lib_pipeline studio "text-generation"
         [("model", arg_model model);
          ("tokenizer", arg_tokenizer tokenizer);
          ("device_map", arg_val (PyStr "auto"));
          ("max_length", arg_int 2048);
          ("temperature", arg_float 1 (-3));
          ("do_sample", arg_val (PyBool true));
          ("streamer", arg_streamer streamer)] m2
       = (Return completing, machine (snd (setup_cells hub studio boot)))
    /\ calls (snd (setup_cells hub studio boot))
       = calls boot
         ++ [call_BitsAndBytesConfig
               [("load_in_8bit", PyBool true);
                ("low_cpu_mem_usage", PyBool true)];
             call_AutoModelForCausalLM_from_pretrained "Deci/DeciCoder-6B"
               (PyObj c) (PyStr "auto") (PyBool true) (PyBool true);
             call_AutoTokenizer_from_pretrained "Deci/DeciCoder-6B"
               (PyBool true);
             call_TextStreamer tokenizer;
             call_transformers_pipeline "text-generation"
               [("model", arg_model model);
                ("tokenizer", arg_tokenizer tokenizer);
                ("device_map", arg_val (PyStr "auto"));
                ("max_length", arg_int 2048);
                ("temperature", arg_float 1 (-3));
                ("do_sample", arg_val (PyBool true));
                ("streamer", arg_streamer streamer)]].
Proof.
  apply (setup_cells_build_on_loaded_pair hub studio boot completing
           (snd (setup_cells hub studio boot))).
  vm_compute. reflexivity.
Defined.

(** The whole notebook on the concrete library returns, after ten
    calls. *)
Lemma notebook_complete_run_witness :
  PyNone = PyNone
  /\ exists c m0 model m1 tokenizer mt σ1 streamer m2,
       new_config
         [("load_in_8bit", PyBool true); ("low_cpu_mem_usage", PyBool true)]
         (machine boot) = (Return c, m0)
       /\ load_model "Deci/DeciCoder-6B"
            (PyObj c) (PyStr "auto") (PyBool true) (PyBool true) m0
          = (Return model, m1)
       /\ load_tokenizer "Deci/DeciCoder-6B" (PyBool true) m1
          = (Return tokenizer, mt)
       /\ load_cell hub boot = (Return (model, tokenizer), σ1)
       /\ lib_TextStreamer studio tokenizer (machine σ1)
          = (Return streamer, m2)
       /\ calls (snd (notebook hub studio boot))
          = calls boot
            ++ [call_BitsAndBytesConfig
                  [("load_in_8bit", PyBool true);
                   ("low_cpu_mem_usage", PyBool true)];
                call_AutoModelForCausalLM_from_pretrained
                  "Deci/DeciCoder-6B"
                  (PyObj c) (PyStr "auto") (PyBool true) (PyBool true);
                call_AutoTokenizer_from_pretrained "Deci/DeciCoder-6B"
                  (PyBool true);
                call_TextStreamer tokenizer;
                call_transformers_pipeline "text-generation"
                  [("model", arg_model model);
                   ("tokenizer", arg_tokenizer tokenizer);
                   ("device_map", arg_val (PyStr "auto"));
                   ("max_length", arg_int 2048);
                   ("temperature", arg_float 1 (-3));
                   ("do_sample", arg_val (PyBool true));
                   ("streamer", arg_streamer streamer)]]
            ++ (call_pipeline <$> notebook_prompts).
Proof.
  apply (notebook_complete_run hub studio boot PyNone
           (snd (notebook hub studio boot))).
  vm_compute. reflexivity.
Defined.

End FurtherRuns.
